(** * blog_utils: HTML fragment renderers for Quarto blog posts

    A shallow embedding of [posts/blog_utils.py] and the properties its
    specification states about it.

    Conventions of the embedding.
    - A Python [str] is a Rocq [string]: the bytes of its UTF-8 encoding.
      Case mapping ([str.lower], [str.title]) is the ASCII one; bytes above
      127 are left as they are.
    - [Optional[T]] is [option T]; Python truthiness ([if title], [x or y])
      is written out: [None], the empty string and the integer 0 are false.
    - A Python [int] is a [Z]; a Python [float] is a binary64 [float]; a
      parameter that takes either is a [pynum].
    - A call either returns or raises: [result A].
    - [IPython.display.HTML(s)] only wraps the markup [s]; a renderer is
      modelled by the markup it wraps.
    - A dict is the list of its items in insertion order. *)

From Stdlib Require Import ZArith List String Ascii Bool Lia.
From Stdlib Require Import Floats DecimalString.
From Stdlib Require DecimalZ DecimalFacts.
Import ListNotations.
Open Scope string_scope.
Open Scope Z_scope.

Set Warnings "-inexact-float".

(** ** Python built-ins used by the module *)

Module Py.

(** The exceptions a call of the module can raise. *)
Inductive exn : Type :=
| ZeroDivisionError
| OverflowError
| KeyError (key : string)
| ValueError.

Inductive result (A : Type) : Type :=
| Ok (a : A)
| Raise (e : exn).
Arguments Ok {A} a.
Arguments Raise {A} e.

Definition bind {A B : Type} (c : result A) (k : A -> result B) : result B :=
  match c with
  | Ok a => k a
  | Raise e => Raise e
  end.

Definition is_ok {A : Type} (c : result A) : bool :=
  match c with
  | Ok _ => true
  | Raise _ => false
  end.

(** *** Strings *)

(** The double quote, which a string literal cannot hold. *)
Definition dq : string := String (ascii_of_nat 34) EmptyString.

Definition nl : string := String (ascii_of_nat 10) EmptyString.

(** A template written line by line: the lines joined by newlines. *)
Definition lines (ls : list string) : string := String.concat nl ls.

(** [sep.join(parts)] *)
Definition join (sep : string) (parts : list string) : string :=
  String.concat sep parts.

(** [l.append(x)] *)
Definition append_item {A : Type} (l : list A) (x : A) : list A :=
  (l ++ [x])%list.

(** [bool(s)] for a string. *)
Definition str_truthy (s : string) : bool :=
  match s with
  | EmptyString => false
  | String _ _ => true
  end.

(** [bool(o)] for an [Optional[str]]. *)
Definition opt_truthy (o : option string) : bool :=
  match o with
  | Some s => str_truthy s
  | None => false
  end.

(** [f(o) if o else ""] for an [Optional[str]]. *)
Definition if_present (o : option string) (f : string -> string) : string :=
  match o with
  | Some s => if str_truthy s then f s else EmptyString
  | None => EmptyString
  end.

(** [o or d] for an [Optional[str]] and a string [d]. *)
Definition or_else (o : option string) (d : string) : string :=
  match o with
  | Some s => if str_truthy s then s else d
  | None => d
  end.

Definition is_upper (c : ascii) : bool :=
  let n := nat_of_ascii c in (Nat.leb 65 n && Nat.leb n 90)%bool.

Definition is_lower (c : ascii) : bool :=
  let n := nat_of_ascii c in (Nat.leb 97 n && Nat.leb n 122)%bool.

Definition to_upper (c : ascii) : ascii :=
  if is_lower c then ascii_of_nat (nat_of_ascii c - 32) else c.

Definition to_lower (c : ascii) : ascii :=
  if is_upper c then ascii_of_nat (nat_of_ascii c + 32) else c.

(** [s.lower()] *)
Fixpoint lower (s : string) : string :=
  match s with
  | EmptyString => EmptyString
  | String c r => String (to_lower c) (lower r)
  end.

(** [s.title()]: a cased character is upper-cased when the character
    before it is uncased (or there is none) and lower-cased otherwise. *)
Fixpoint title_from (previous_is_cased : bool) (s : string) : string :=
  match s with
  | EmptyString => EmptyString
  | String c r =>
      if is_lower c then
        String (if previous_is_cased then c else to_upper c) (title_from true r)
      else if is_upper c then
        String (if previous_is_cased then to_lower c else c) (title_from true r)
      else String c (title_from false r)
  end.

Definition title (s : string) : string := title_from false s.

(** [s.replace(old, new)] for a one-character [old]. *)
Fixpoint replace_char (old : ascii) (new : string) (s : string) : string :=
  match s with
  | EmptyString => EmptyString
  | String c r =>
      if Ascii.eqb c old then new ++ replace_char old new r
      else String c (replace_char old new r)
  end.

(** [str(n)] for an int. *)
Definition str_of_int (n : Z) : string := NilZero.string_of_int (Z.to_int n).

(** [bool(o)] for an [Optional[int]]. *)
Definition int_truthy (o : option Z) : bool :=
  match o with
  | Some n => negb (n =? 0)
  | None => false
  end.

(** *** Numbers *)

Inductive pynum : Type :=
| PyInt (n : Z)
| PyFloat (x : float).

(** [float(n)]: the nearest double, ties to even; an int that rounds
    beyond the largest double raises. *)
Definition float_of_int (n : Z) : result float :=
  let x := SF2Prim (binary_normalize prec emax n 0 false) in
  if PrimFloat.is_infinity x then Raise OverflowError else Ok x.

Definition as_double (v : pynum) : result float :=
  match v with
  | PyInt n => float_of_int n
  | PyFloat x => Ok x
  end.

(** [a / b] for two ints: the correctly rounded quotient.  The quotient
    is computed to 64 bits or more with a sticky bit below them, then
    rounded once to binary64. *)
Definition int_true_divide (a b : Z) : result float :=
  if b =? 0 then Raise ZeroDivisionError
  else
    let negate := xorb (a <? 0) (b <? 0) in
    if a =? 0 then Ok (if negate then neg_zero else zero)
    else
      let n := Z.abs a in
      let d := Z.abs b in
      let shift := 64 + Z.log2 d - Z.log2 n in
      let (q, r) :=
        if 0 <=? shift then Z.div_eucl (n * 2 ^ shift) d
        else Z.div_eucl n (d * 2 ^ (- shift)) in
      let m := 2 * q + (if r =? 0 then 0 else 1) in
      let x := SF2Prim (binary_normalize prec emax
                          (if negate then - m else m) (- shift - 1) false) in
      if PrimFloat.is_infinity x then Raise OverflowError else Ok x.

(** [a / b] *)
Definition truediv (a b : pynum) : result float :=
  match a, b with
  | PyInt x, PyInt y => int_true_divide x y
  | _, _ =>
      bind (as_double a) (fun x =>
      bind (as_double b) (fun y =>
      if PrimFloat.eqb y zero then Raise ZeroDivisionError
      else Ok (PrimFloat.div x y)))
  end.

(** [a * b] *)
Definition mul (a b : pynum) : result pynum :=
  match a, b with
  | PyInt x, PyInt y => Ok (PyInt (x * y))
  | _, _ =>
      bind (as_double a) (fun x =>
      bind (as_double b) (fun y => Ok (PyFloat (PrimFloat.mul x y))))
  end.

(** [a // b] for two ints. *)
Definition floordiv (a b : Z) : result Z :=
  if b =? 0 then Raise ZeroDivisionError else Ok (a / b).

(** The number of tenths nearest to [m * 2^e], ties to even. *)
Definition nearest_tenths (m : positive) (e : Z) : Z :=
  if 0 <=? e then 10 * Zpos m * 2 ^ e
  else
    let d := 2 ^ (- e) in
    let q := (10 * Zpos m) / d in
    let r := (10 * Zpos m) mod d in
    if 2 * r <? d then q
    else if d <? 2 * r then q + 1
    else if Z.even q then q else q + 1.

Definition sign_str (s : bool) : string := if s then "-" else EmptyString.

(** [format(x, ".1f")] *)
Definition format_1f (x : float) : string :=
  match Prim2SF x with
  | S754_nan => "nan"
  | S754_infinity s => sign_str s ++ "inf"
  | S754_zero s => sign_str s ++ "0.0"
  | S754_finite s m e =>
      let t := nearest_tenths m e in
      sign_str s ++ str_of_int (t / 10) ++ "." ++ str_of_int (t mod 10)
  end.

(** *** Dicts with string keys *)

Definition dict : Type := list (string * string).

Fixpoint lookup (d : dict) (key : string) : option string :=
  match d with
  | [] => None
  | (k, v) :: rest => if String.eqb k key then Some v else lookup rest key
  end.

(** [d[key]] *)
Definition getitem (d : dict) (key : string) : result string :=
  match lookup d key with
  | Some v => Ok v
  | None => Raise (KeyError key)
  end.

(** [d.get(key, default)] *)
Definition get (d : dict) (key : string) (default : string) : string :=
  match lookup d key with
  | Some v => v
  | None => default
  end.

End Py.

Import Py.

Notation "x <- c ;; k" := (Py.bind c (fun x => k))
  (at level 61, c at next level, right associativity).

(** ** The parts of pandas the module calls

    pandas is a library the module imports; it is not part of the module.
    The frame, the row selection of [head], the frame built from a dict of
    columns and the cell selection of [Styler.highlight_max] are modelled
    here after the library.  What the library renders ([to_html],
    [describe], [round]) is a parameter of the renderers below. *)

Module Pandas.

Inductive cell : Type :=
| CInt (n : Z)
| CFloat (x : float)
| CStr (s : string).

(** A row: its index label and its cells, one per column. *)
Definition row : Type := (cell * list cell)%type.

Record DataFrame : Type := {
  df_columns : list string;
  df_rows : list row
}.

(** [l[:n]]: the first [n] items, or all but the last [-n] for [n < 0]. *)
Definition slice_to {A : Type} (n : Z) (l : list A) : list A :=
  if 0 <=? n then firstn (Z.to_nat n) l
  else firstn (List.length l - Z.to_nat (- n)) l.

(** Modelled from the spec: [df.head(n)] is pandas' and not in the
    sources.  It keeps the first [n] rows in their order; the library
    defines it as [df.iloc[:n]], which settles the negative [n]. *)
Definition head (df : DataFrame) (n : Z) : DataFrame :=
  {| df_columns := df_columns df; df_rows := slice_to n (df_rows df) |}.

(** [pd.DataFrame(data)] for a dict of equally long lists: the keys are
    the columns, the index is 0, 1, ...; lists of different lengths
    raise. *)
Fixpoint same_length (n : nat) (cols : list (string * list cell)) : bool :=
  match cols with
  | [] => true
  | (_, l) :: rest => (Nat.eqb (List.length l) n && same_length n rest)%bool
  end.

Fixpoint rows_from (i : Z) (n : nat) (cols : list (list cell)) : list row :=
  match n with
  | O => []
  | S n' =>
      (CInt i, map (fun l => hd (CStr EmptyString) l) cols)
        :: rows_from (i + 1) n' (map (fun l => tl l) cols)
  end.

Definition from_dict (data : list (string * list cell)) : result DataFrame :=
  match data with
  | [] => Ok {| df_columns := []; df_rows := [] |}
  | (_, l) :: _ =>
      if same_length (List.length l) data then
        Ok {| df_columns := map fst data;
              df_rows := rows_from 0 (List.length l) (map snd data) |}
      else Raise ValueError
  end.

(** The cells of column [j], top to bottom. *)
Definition column (df : DataFrame) (j : nat) : list cell :=
  map (fun r : row => nth j (snd r) (CStr EmptyString)) (df_rows df).

(** The dtype of a column, as far as the highlighting needs it: a
    column of 64-bit integers, a column of doubles (doubles, or doubles
    and 64-bit integers), or anything else (text, integers out of
    range). *)
Inductive series : Type :=
| IntSeries (l : list Z)
| FloatSeries (l : list float)
| ObjectSeries (l : list cell).

Definition is_int64 (n : Z) : bool :=
  ((- 2 ^ 63 <=? n) && (n <? 2 ^ 63))%bool.

Fixpoint all_ints (l : list cell) : option (list Z) :=
  match l with
  | [] => Some []
  | CInt n :: rest =>
      if is_int64 n then option_map (cons n) (all_ints rest) else None
  | _ :: _ => None
  end.

(** The column as doubles: a 64-bit integer next to doubles is converted
    to the nearest double. *)
Fixpoint all_floats (l : list cell) : option (list float) :=
  match l with
  | [] => Some []
  | CFloat x :: rest => option_map (cons x) (all_floats rest)
  | CInt n :: rest =>
      match float_of_int n with
      | Ok x => if is_int64 n then option_map (cons x) (all_floats rest) else None
      | Raise _ => None
      end
  | CStr _ :: _ => None
  end.

Definition as_series (l : list cell) : series :=
  match all_ints l with
  | Some zs => IntSeries zs
  | None =>
      match all_floats l with
      | Some xs => FloatSeries xs
      | None => ObjectSeries l
      end
  end.

(** [s.max(skipna=True)] of an integer column; [None] when it is empty. *)
Fixpoint int_max (l : list Z) : option Z :=
  match l with
  | [] => None
  | n :: rest =>
      match int_max rest with
      | Some m => Some (Z.max n m)
      | None => Some n
      end
  end.

(** [s.max(skipna=True)] of a floating-point column: the largest value
    that is not NaN; [None] when there is none. *)
Fixpoint float_max (l : list float) : option float :=
  match l with
  | [] => None
  | x :: rest =>
      match float_max rest with
      | Some m =>
          if PrimFloat.is_nan x then Some m
          else if PrimFloat.ltb m x then Some x else Some m
      | None => if PrimFloat.is_nan x then None else Some x
      end
  end.

(** Modelled from the spec: [Styler.highlight_max(axis=0)] is pandas' and
    not in the sources.  The specification has it mark the maximum value
    in each numeric column, ties included; so does the library, which
    compares every cell of a column with the column maximum.  [other]
    decides the columns that are neither integer nor floating-point. *)
Definition highlight_column (other : list cell -> list bool) (l : list cell)
  : list bool :=
  match as_series l with
  | IntSeries zs =>
      match int_max zs with
      | Some m => map (fun n => n =? m) zs
      | None => []
      end
  | FloatSeries xs =>
      match float_max xs with
      | Some m => map (fun x => PrimFloat.eqb x m) xs
      | None => map (fun _ => false) xs
      end
  | ObjectSeries cs => other cs
  end.

(** A [Styler]: the frame, the identifier its markup carries, and for
    each column which cells are highlighted and with what CSS. *)
Record Styler : Type := {
  st_data : DataFrame;
  st_uuid : string;
  st_props : string;
  st_marks : list (list bool)
}.

Definition highlight_max (other : list cell -> list bool) (color : string)
    (uuid : string) (df : DataFrame) : Styler :=
  {| st_data := df;
     st_uuid := uuid;
     st_props := "background-color: " ++ color ++ ";";
     st_marks :=
       map (fun j => highlight_column other (column df j))
           (seq 0 (List.length (df_columns df))) |}.

End Pandas.

Import Pandas.

(** ** The state outside the module

    The module keeps no state of its own.  The one thing a call reaches
    outside its arguments is the identifier pandas gives a new [Styler]:
    [uuid4().hex[:5]], drawn from the random source of the operating
    system.  A [world] is the sequence of the identifiers still to come. *)

Definition world : Type := nat -> string.

Definition draw_uuid (w : world) : string * world :=
  (w O, fun n => w (S n)).

(** ** Reading the markup

    What a browser takes as the classes of the first element that has a
    [class] attribute: the text between the quotes, split at spaces. *)

Fixpoint strip_prefix (p s : string) : option string :=
  match p, s with
  | EmptyString, _ => Some s
  | String a p', String b s' => if Ascii.eqb a b then strip_prefix p' s' else None
  | String _ _, EmptyString => None
  end.

Fixpoint find_after (p s : string) : option string :=
  match strip_prefix p s with
  | Some r => Some r
  | None =>
      match s with
      | EmptyString => None
      | String _ r => find_after p r
      end
  end.

Fixpoint take_until (stop : ascii) (s : string) : string :=
  match s with
  | EmptyString => EmptyString
  | String c r => if Ascii.eqb c stop then EmptyString else String c (take_until stop r)
  end.

(** The words of [s]: its maximal runs of characters other than the space;
    [word] holds the run being read. *)
Fixpoint words_from (word : string) (s : string) : list string :=
  match s with
  | EmptyString => if str_truthy word then [word] else []
  | String c r =>
      if Ascii.eqb c " "
      then (if str_truthy word then word :: words_from EmptyString r
            else words_from EmptyString r)
      else words_from (word ++ String c EmptyString) r
  end.

(** [c not in s] *)
Fixpoint no_char (c : ascii) (s : string) : bool :=
  match s with
  | EmptyString => true
  | String a r => (negb (Ascii.eqb a c) && no_char c r)%bool
  end.

Definition class_attr (html : string) : option string :=
  option_map (take_until (ascii_of_nat 34)) (find_after ("class=" ++ dq) html).

Definition class_list (html : string) : list string :=
  match class_attr html with
  | Some v => words_from EmptyString v
  | None => []
  end.

Definition has_class (c : string) (html : string) : bool :=
  existsb (String.eqb c) (class_list html).

(** ** Stand-ins for the libraries

    Simple functions to put for what the libraries render when a call is
    run on concrete arguments.  The stand-in for [Styler.to_html] keeps
    what matters of the real markup here: the table carries the
    identifier of the [Styler] in its [id]. *)

Module Sample.

(** Agrees with [repr] on the doubles that have one decimal digit. *)
Definition float_repr (x : float) : string := format_1f x.

Definition to_html (df : DataFrame) (classes : string) (escape : bool)
    (table_id : option string) : string :=
  "<table class=" ++ dq ++ "dataframe " ++ classes ++ dq ++ ">"
    ++ join "" (map (fun _ : row => "<tr></tr>") (df_rows df)) ++ "</table>".

Definition styler_to_html (st : Styler) : string :=
  "<table id=" ++ dq ++ "T_" ++ st_uuid st ++ dq ++ ">"
    ++ join "" (map (fun _ : row => "<tr></tr>") (df_rows (st_data st)))
    ++ "</table>".

Definition highlight_other (cells : list cell) : list bool :=
  map (fun _ => false) cells.

Definition select_columns (df : DataFrame) (columns : list string)
  : result DataFrame := Ok df.

Definition select_numbers (df : DataFrame) : DataFrame := df.

Definition describe (df : DataFrame) : result DataFrame := Ok df.

Definition round3 (df : DataFrame) : DataFrame := df.

(** A world: the identifiers the next Stylers get. *)
Definition uuids : world :=
  fun n => nth n ["1a2b3"; "4c5d6"; "7e8f9"] "00000".

(** A frame of three rows and a dict of one column with a tied maximum. *)
Definition scores : DataFrame :=
  {| df_columns := ["name"; "score"];
     df_rows := [(CInt 0, [CStr "ada"; CInt 3]);
                 (CInt 1, [CStr "bob"; CInt 7]);
                 (CInt 2, [CStr "cy"; CInt 7])] |}.


End Sample.

(** ** The renderers *)

Section Renderers.

(** [repr(x)] of a float, the text an f-string puts for it. *)
Variable float_repr : float -> string.

(** [df.to_html(classes=..., escape=..., table_id=...)] *)
Variable to_html : DataFrame -> string -> bool -> option string -> string.

(** [styler.to_html()] *)
Variable styler_to_html : Styler -> string.

(** [Styler.highlight_max] on a column that is not numeric. *)
Variable highlight_other : list cell -> list bool.

(** [df[columns]], [df.select_dtypes(include=['number'])],
    [df.describe()] and [df.round(3)]. *)
Variable select_columns : DataFrame -> list string -> result DataFrame.
Variable select_numbers : DataFrame -> DataFrame.
Variable describe : DataFrame -> result DataFrame.
Variable round3 : DataFrame -> DataFrame.

(** The text an f-string puts for a number. *)
Definition num_str (v : pynum) : string :=
  match v with
  | PyInt n => str_of_int n
  | PyFloat x => float_repr x
  end.

(** *** Callouts and alerts *)

(** The callout types the docstring of [create_callout] lists. *)
Definition callout_types : list string :=
  ["note"; "tip"; "warning"; "caution"; "important"].

Definition create_callout (content callout_type : string)
    (title : option string) (collapsible collapsed : bool) : string :=
  let display_title := or_else title (Py.title callout_type) in
  let collapse_class := if collapsible then "callout-collapse" else "" in
  let collapse_state := if (collapsed && collapsible)%bool then "collapsed" else "" in
  lines [
    "";
    "    <div class=" ++ dq ++ "callout callout-style-default callout-" ++ callout_type ++ " " ++ collapse_class ++ " " ++ collapse_state ++ dq ++ ">";
    "        <div class=" ++ dq ++ "callout-header d-flex align-content-center" ++ dq ++ ">";
    "            <div class=" ++ dq ++ "callout-icon-container" ++ dq ++ ">";
    "                <i class=" ++ dq ++ "callout-icon" ++ dq ++ "></i>";
    "            </div>";
    "            <div class=" ++ dq ++ "callout-title-container flex-fill" ++ dq ++ ">";
    "                " ++ display_title;
    "            </div>";
    "        </div>";
    "        <div class=" ++ dq ++ "callout-body-container callout-body" ++ dq ++ ">";
    "            " ++ content;
    "        </div>";
    "    </div>";
    "    " ].

Definition alert_classes : dict := [
  ("info", "alert-info");
  ("success", "alert-success");
  ("warning", "alert-warning");
  ("danger", "alert-danger");
  ("primary", "alert-primary");
  ("secondary", "alert-secondary") ].

Definition create_alert_box (content alert_type : string)
    (title : option string) (dismissible : bool) : string :=
  let alert_class := get alert_classes alert_type "alert-info" in
  let title_html := if_present title (fun title => "<strong>" ++ title ++ "</strong><br>") in
  let dismiss_class := if dismissible then " alert-dismissible" else "" in
  let dismiss_button :=
    if dismissible then
      lines [
        "";
        "    <button type=" ++ dq ++ "button" ++ dq ++ " class=" ++ dq ++ "btn-close" ++ dq ++ " data-bs-dismiss=" ++ dq ++ "alert" ++ dq ++ " aria-label=" ++ dq ++ "Close" ++ dq ++ "></button>";
        "    " ]
    else "" in
  lines [
    "";
    "    <div class=" ++ dq ++ "alert " ++ alert_class ++ dismiss_class ++ dq ++ " role=" ++ dq ++ "alert" ++ dq ++ ">";
    "        " ++ title_html ++ content;
    "        " ++ dismiss_button;
    "    </div>";
    "    " ].

Definition create_info_box (content icon background_color border_color : string)
  : string :=
  lines [
    "";
    "    <div style=" ++ dq;
    "        background-color: " ++ background_color ++ ";";
    "        border-left: 4px solid " ++ border_color ++ ";";
    "        padding: 15px;";
    "        margin: 15px 0;";
    "        border-radius: 4px;";
    "        box-shadow: 0 2px 4px rgba(0,0,0,0.1);";
    "    " ++ dq ++ ">";
    "        <div style=" ++ dq ++ "display: flex; align-items: flex-start;" ++ dq ++ ">";
    "            <div style=" ++ dq ++ "font-size: 1.2em; margin-right: 10px;" ++ dq ++ ">" ++ icon ++ "</div>";
    "            <div style=" ++ dq ++ "flex: 1;" ++ dq ++ ">" ++ content ++ "</div>";
    "        </div>";
    "    </div>";
    "    " ].

(** *** Iframes and embeds *)

Definition create_responsive_iframe (src : string) (aspect_ratio : pynum)
    (max_width border : string) (allowfullscreen : bool) (loading : string)
  : result string :=
  scaled <- mul aspect_ratio (PyInt 100) ;;
  let padding_bottom := num_str scaled ++ "%" in
  let allowfullscreen_attr := if allowfullscreen then "allowfullscreen" else "" in
  Ok (lines [
    "";
    "    <div style=" ++ dq ++ "position: relative; width: " ++ max_width ++ "; height: 0; padding-bottom: " ++ padding_bottom ++ "; overflow: hidden; border-radius: 8px;" ++ dq ++ ">";
    "        <iframe src=" ++ dq ++ src ++ dq ++ " ";
    "                style=" ++ dq ++ "position: absolute; top: 0; left: 0; width: 100%; height: 100%; border: " ++ border ++ ";" ++ dq;
    "                loading=" ++ dq ++ loading ++ dq;
    "                " ++ allowfullscreen_attr ++ ">";
    "        </iframe>";
    "    </div>";
    "    " ]).

(** The query-string fragments [embed_youtube] collects in [params]. *)
Definition youtube_params (start_time : option Z) (autoplay controls : bool)
  : list string :=
  let params : list string := [] in
  let params :=
    match start_time with
    | Some n =>
        if n =? 0 then params
        else append_item params ("start=" ++ str_of_int n)
    | None => params
    end in
  let params := if autoplay then append_item params "autoplay=1" else params in
  let params := if negb controls then append_item params "controls=0" else params in
  params.

(** The [src] that [embed_youtube] hands to the iframe renderer. *)
Definition youtube_src (video_id : string) (start_time : option Z)
    (autoplay controls : bool) : string :=
  let params := youtube_params start_time autoplay controls in
  let param_string :=
    match params with
    | [] => ""
    | _ :: _ => "&" ++ join "&" params
    end in
  "https://www.youtube.com/embed/" ++ video_id ++ "?" ++ param_string.

Definition embed_youtube (video_id width : string) (aspect_ratio : pynum)
    (start_time : option Z) (autoplay controls : bool) : result string :=
  create_responsive_iframe
    (youtube_src video_id start_time autoplay controls)
    aspect_ratio width "0" true "lazy".

Definition embed_vimeo (video_id width : string) (aspect_ratio : pynum)
  : result string :=
  create_responsive_iframe
    ("https://player.vimeo.com/video/" ++ video_id)
    aspect_ratio width "0" true "lazy".

Definition embed_twitter_tweet (tweet_url theme : string) : string :=
  lines [
    "";
    "    <blockquote class=" ++ dq ++ "twitter-tweet" ++ dq ++ " data-theme=" ++ dq ++ theme ++ dq ++ ">";
    "        <a href=" ++ dq ++ tweet_url ++ dq ++ "></a>";
    "    </blockquote>";
    "    <script async src=" ++ dq ++ "https://platform.twitter.com/widgets.js" ++ dq ++ " charset=" ++ dq ++ "utf-8" ++ dq ++ "></script>";
    "    " ].

Definition embed_codepen (pen_id user : string) (height : Z) (theme : string)
  : result string :=
  ratio <- int_true_divide height 800 ;;
  create_responsive_iframe
    ("https://codepen.io/" ++ user ++ "/embed/" ++ pen_id ++ "?height=" ++ str_of_int height ++ "&theme-id=" ++ theme ++ "&default-tab=result")
    (PyFloat ratio) "100%" "0" true "lazy".

Definition embed_plotly_chart (chart_url : string) (height : Z) (width : string)
  : string :=
  lines [
    "";
    "    <iframe src=" ++ dq ++ chart_url ++ dq ++ " ";
    "            width=" ++ dq ++ width ++ dq ++ " ";
    "            height=" ++ dq ++ str_of_int height ++ dq ++ " ";
    "            frameborder=" ++ dq ++ "0" ++ dq ++ " ";
    "            style=" ++ dq ++ "border: 0; border-radius: 8px;" ++ dq ++ ">";
    "    </iframe>";
    "    " ].

(** *** Data display and tables *)

(** [df.head(max_rows) if max_rows else df] *)
Definition display_frame (df : DataFrame) (max_rows : option Z) : DataFrame :=
  match max_rows with
  | Some n => if n =? 0 then df else head df n
  | None => df
  end.

Definition create_styled_table (df : DataFrame) (title caption : option string)
    (max_rows : option Z) (striped hover responsive : bool) : string :=
  let display_df := display_frame df max_rows in
  let table_classes := ["table"] in
  let table_classes :=
    if striped then append_item table_classes "table-striped" else table_classes in
  let table_classes :=
    if hover then append_item table_classes "table-hover" else table_classes in
  let table_class_str := join " " table_classes in
  let title_html := if_present title (fun title => "<h4>" ++ title ++ "</h4>") in
  let caption_html := if_present caption (fun caption => "<caption>" ++ caption ++ "</caption>") in
  let table_html := to_html display_df table_class_str false (Some "styled-table") in
  let table_html :=
    if responsive
    then "<div class=" ++ dq ++ "table-responsive" ++ dq ++ ">" ++ table_html ++ "</div>"
    else table_html in
  lines [
    "";
    "    <div style=" ++ dq ++ "margin: 20px 0;" ++ dq ++ ">";
    "        " ++ title_html;
    "        " ++ table_html;
    "        " ++ caption_html;
    "    </div>";
    "    " ].

Definition create_summary_stats (df : DataFrame) (columns : option (list string))
    (title : string) : result string :=
  summary_df <-
    match columns with
    | Some (c :: cs) => selected <- select_columns df (c :: cs) ;; describe selected
    | Some [] | None => describe (select_numbers df)
    end ;;
  Ok (create_styled_table (round3 summary_df) (Some title) None None true true true).

(** The f-string of [create_comparison_table], as a function of the
    names it interpolates. *)
Definition comparison_html (title styled_html : string) : string :=
  lines [
    "";
    "    <div style=" ++ dq ++ "margin: 20px 0;" ++ dq ++ ">";
    "        <h4>" ++ title ++ "</h4>";
    "        <div class=" ++ dq ++ "table-responsive" ++ dq ++ ">";
    "            " ++ styled_html;
    "        </div>";
    "    </div>";
    "    " ].

Definition create_comparison_table (data : list (string * list cell))
    (title : string) (highlight_best : bool) (w : world)
  : result string * world :=
  match from_dict data with
  | Raise e => (Raise e, w)
  | Ok df =>
      let (styled_html, w') :=
        if highlight_best then
          let (uuid, w') := draw_uuid w in
          (styler_to_html (highlight_max highlight_other "lightgreen" uuid df), w')
        else (to_html df "table table-striped table-hover" true None, w) in
      (Ok (comparison_html title styled_html), w')
  end.

(** *** Interactive elements *)

(** The two f-strings of the loop of [create_tabs], as functions of the
    names they interpolate. *)
Definition tab_nav_item (tab_id active_class tab_id_clean tab_name : string)
  : string :=
  lines [
    "";
    "        <li class=" ++ dq ++ "nav-item" ++ dq ++ " role=" ++ dq ++ "presentation" ++ dq ++ ">";
    "            <button class=" ++ dq ++ "nav-link " ++ active_class ++ dq ++ " id=" ++ dq ++ tab_id ++ "-" ++ tab_id_clean ++ "-tab" ++ dq ++ " ";
    "                    data-bs-toggle=" ++ dq ++ "tab" ++ dq ++ " data-bs-target=" ++ dq ++ "#" ++ tab_id ++ "-" ++ tab_id_clean ++ dq ++ " ";
    "                    type=" ++ dq ++ "button" ++ dq ++ " role=" ++ dq ++ "tab" ++ dq ++ ">";
    "                " ++ tab_name;
    "            </button>";
    "        </li>";
    "        " ].

Definition tab_pane_item (tab_id pane_state tab_id_clean content : string)
  : string :=
  lines [
    "";
    "        <div class=" ++ dq ++ "tab-pane fade " ++ pane_state ++ dq ++ " ";
    "             id=" ++ dq ++ tab_id ++ "-" ++ tab_id_clean ++ dq ++ " role=" ++ dq ++ "tabpanel" ++ dq ++ ">";
    "            " ++ content;
    "        </div>";
    "        " ].

(** The loop of [create_tabs] from index [i] on, with the two lists it
    appends to. *)
Fixpoint tabs_loop (tab_id : string) (i : Z) (items : dict)
    (tab_nav tab_content : list string) : list string * list string :=
  match items with
  | [] => (tab_nav, tab_content)
  | (tab_name, content) :: rest =>
      let active_class := if i =? 0 then "active" else "" in
      let tab_id_clean := replace_char " " "-" (lower tab_name) in
      let tab_nav :=
        append_item tab_nav (tab_nav_item tab_id active_class tab_id_clean tab_name) in
      let tab_content :=
        append_item tab_content
          (tab_pane_item tab_id (if i =? 0 then "show active" else "") tab_id_clean content) in
      tabs_loop tab_id (i + 1) rest tab_nav tab_content
  end.

Definition tabs_html (tab_id nav_html content_html : string) : string :=
  lines [
    "";
    "    <div>";
    "        <ul class=" ++ dq ++ "nav nav-tabs" ++ dq ++ " id=" ++ dq ++ tab_id ++ dq ++ " role=" ++ dq ++ "tablist" ++ dq ++ ">";
    "            " ++ nav_html;
    "        </ul>";
    "        <div class=" ++ dq ++ "tab-content" ++ dq ++ " id=" ++ dq ++ tab_id ++ "-content" ++ dq ++ ">";
    "            " ++ content_html;
    "        </div>";
    "    </div>";
    "    " ].

Definition create_tabs (tabs_content : dict) (tab_id : string) : string :=
  let (tab_nav, tab_content) := tabs_loop tab_id 0 tabs_content [] [] in
  tabs_html tab_id (join "" tab_nav) (join "" tab_content).

(** The f-string of the loop of [create_accordion], as a function of the
    names and conditional expressions it interpolates. *)
Definition accordion_section (section_id collapsed_class expanded show_class
    parent title content : string) : string :=
  lines [
    "";
    "        <div class=" ++ dq ++ "accordion-item" ++ dq ++ ">";
    "            <h2 class=" ++ dq ++ "accordion-header" ++ dq ++ " id=" ++ dq ++ section_id ++ "-heading" ++ dq ++ ">";
    "                <button class=" ++ dq ++ "accordion-button " ++ collapsed_class ++ dq ++ " type=" ++ dq ++ "button" ++ dq ++ " ";
    "                        data-bs-toggle=" ++ dq ++ "collapse" ++ dq ++ " data-bs-target=" ++ dq ++ "#" ++ section_id ++ dq ++ " ";
    "                        aria-expanded=" ++ dq ++ expanded ++ dq ++ ">";
    "                    " ++ title;
    "                </button>";
    "            </h2>";
    "            <div id=" ++ dq ++ section_id ++ dq ++ " class=" ++ dq ++ "accordion-collapse collapse " ++ show_class ++ dq ++ " ";
    "                 data-bs-parent=" ++ dq ++ "#" ++ parent ++ dq ++ ">";
    "                <div class=" ++ dq ++ "accordion-body" ++ dq ++ ">";
    "                    " ++ content;
    "                </div>";
    "            </div>";
    "        </div>";
    "        " ].

(** The loop of [create_accordion] from index [i] on, with the list it
    appends to. *)
Fixpoint accordion_loop (accordion_id : string) (allow_multiple : bool) (i : Z)
    (items : dict) (accordion_sections : list string) : list string :=
  match items with
  | [] => accordion_sections
  | (title, content) :: rest =>
      let section_id := accordion_id ++ "-section-" ++ str_of_int i in
      let show_class := if i =? 0 then "show" else "" in
      let collapsed_class := if i =? 0 then "" else "collapsed" in
      let accordion_sections :=
        append_item accordion_sections
          (accordion_section section_id collapsed_class
             (if i =? 0 then "true" else "false") show_class
             (if negb allow_multiple then accordion_id else "")
             title content) in
      accordion_loop accordion_id allow_multiple (i + 1) rest accordion_sections
  end.

Definition accordion_html (accordion_id sections_html : string) : string :=
  lines [
    "";
    "    <div class=" ++ dq ++ "accordion" ++ dq ++ " id=" ++ dq ++ accordion_id ++ dq ++ ">";
    "        " ++ sections_html;
    "    </div>";
    "    " ].

Definition create_accordion (accordion_items : dict) (accordion_id : string)
    (allow_multiple : bool) : string :=
  let accordion_sections :=
    accordion_loop accordion_id allow_multiple 0 accordion_items [] in
  accordion_html accordion_id (join "" accordion_sections).

(** *** Progress and metrics *)

(** [(value / max_value) * 100]: the quotient is a float, and so is its
    product with the int 100. *)
Definition percentage_of (value max_value : pynum) : result float :=
  ratio <- truediv value max_value ;;
  Ok (PrimFloat.mul ratio 100%float).

(** The class list of the bar, joined. *)
Definition progress_class_str (color : string) (striped animated : bool)
  : string :=
  let progress_classes := ["bg-" ++ color] in
  let progress_classes :=
    if striped then append_item progress_classes "progress-bar-striped"
    else progress_classes in
  let progress_classes :=
    if animated then append_item progress_classes "progress-bar-animated"
    else progress_classes in
  join " " progress_classes.

(** [label or f"{percentage:.1f}%"] *)
Definition progress_label (label : option string) (percentage : float) : string :=
  or_else label (format_1f percentage ++ "%").

(** The f-string of [create_progress_bar], as a function of the texts it
    interpolates. *)
Definition progress_bar_html
    (progress_class_str percentage value max_value label_text : string) : string :=
  lines [
    "";
    "    <div class=" ++ dq ++ "progress" ++ dq ++ " style=" ++ dq ++ "height: 25px; margin: 10px 0;" ++ dq ++ ">";
    "        <div class=" ++ dq ++ "progress-bar " ++ progress_class_str ++ dq ++ " role=" ++ dq ++ "progressbar" ++ dq ++ " ";
    "             style=" ++ dq ++ "width: " ++ percentage ++ "%" ++ dq ++ " aria-valuenow=" ++ dq ++ value ++ dq ++ " ";
    "             aria-valuemin=" ++ dq ++ "0" ++ dq ++ " aria-valuemax=" ++ dq ++ max_value ++ dq ++ ">";
    "            " ++ label_text;
    "        </div>";
    "    </div>";
    "    " ].

Definition create_progress_bar (value max_value : pynum) (label : option string)
    (color : string) (striped animated : bool) : result string :=
  percentage <- percentage_of value max_value ;;
  let progress_class_str := progress_class_str color striped animated in
  let label_text := progress_label label percentage in
  Ok (progress_bar_html progress_class_str (float_repr percentage)
        (num_str value) (num_str max_value) label_text).

(** A value to display: [Union[str, int, float]]. *)
Inductive display_value : Type :=
| DText (s : string)
| DNumber (v : pynum).

Definition display_str (v : display_value) : string :=
  match v with
  | DText s => s
  | DNumber n => num_str n
  end.

Definition change_colors : dict := [
  ("positive", "#28a745");
  ("negative", "#dc3545");
  ("neutral", "#6c757d") ].

Definition create_metric_card (title : string) (value : display_value)
    (subtitle change : option string) (change_type : string)
    (icon : option string) : string :=
  let change_color := get change_colors change_type "#6c757d" in
  let icon_html := if_present icon (fun icon => "<div style=" ++ dq ++ "font-size: 2em; margin-bottom: 10px;" ++ dq ++ ">" ++ icon ++ "</div>") in
  let subtitle_html := if_present subtitle (fun subtitle => "<div style=" ++ dq ++ "color: #6c757d; font-size: 0.9em;" ++ dq ++ ">" ++ subtitle ++ "</div>") in
  let change_html := if_present change (fun change => "<div style=" ++ dq ++ "color: " ++ change_color ++ "; font-weight: bold; margin-top: 5px;" ++ dq ++ ">" ++ change ++ "</div>") in
  lines [
    "";
    "    <div style=" ++ dq;
    "        border: 1px solid #dee2e6;";
    "        border-radius: 8px;";
    "        padding: 20px;";
    "        margin: 10px 0;";
    "        text-align: center;";
    "        background: white;";
    "        box-shadow: 0 2px 4px rgba(0,0,0,0.1);";
    "    " ++ dq ++ ">";
    "        " ++ icon_html;
    "        <div style=" ++ dq ++ "font-size: 0.9em; color: #6c757d; margin-bottom: 5px;" ++ dq ++ ">" ++ title ++ "</div>";
    "        <div style=" ++ dq ++ "font-size: 2em; font-weight: bold; color: #212529;" ++ dq ++ ">" ++ display_str value ++ "</div>";
    "        " ++ subtitle_html;
    "        " ++ change_html;
    "    </div>";
    "    " ].

(** *** Utility functions *)

Definition timeline_item (event : dict) : string :=
  lines [
    "";
    "        <div style=" ++ dq;
    "            position: relative;";
    "            padding-left: 30px;";
    "            margin-bottom: 30px;";
    "            border-left: 2px solid #007bff;";
    "        " ++ dq ++ ">";
    "            <div style=" ++ dq;
    "                position: absolute;";
    "                left: -8px;";
    "                top: 0;";
    "                width: 14px;";
    "                height: 14px;";
    "                border-radius: 50%;";
    "                background: #007bff;";
    "            " ++ dq ++ "></div>";
    "            <div style=" ++ dq ++ "font-weight: bold; color: #007bff; font-size: 0.9em;" ++ dq ++ ">";
    "                " ++ get event "date" "";
    "            </div>";
    "            <div style=" ++ dq ++ "font-weight: bold; margin: 5px 0;" ++ dq ++ ">";
    "                " ++ get event "title" "";
    "            </div>";
    "            <div style=" ++ dq ++ "color: #6c757d;" ++ dq ++ ">";
    "                " ++ get event "description" "";
    "            </div>";
    "        </div>";
    "        " ].

Fixpoint timeline_loop (events : list dict) (timeline_items : list string)
  : list string :=
  match events with
  | [] => timeline_items
  | event :: rest =>
      timeline_loop rest (append_item timeline_items (timeline_item event))
  end.

Definition create_timeline (events : list dict) (title : string) : string :=
  let timeline_items := timeline_loop events [] in
  lines [
    "";
    "    <div style=" ++ dq ++ "margin: 20px 0;" ++ dq ++ ">";
    "        <h4>" ++ title ++ "</h4>";
    "        <div style=" ++ dq ++ "margin-top: 20px;" ++ dq ++ ">";
    "            " ++ join "" timeline_items;
    "        </div>";
    "    </div>";
    "    " ].

Definition create_quote_block (quote : string) (author source : option string)
  : string :=
  let author_html := if_present author (fun author => "<cite>— " ++ author ++ "</cite>") in
  let source_html := if_present source (fun source => "<small>, " ++ source ++ "</small>") in
  lines [
    "";
    "    <blockquote style=" ++ dq;
    "        border-left: 4px solid #007bff;";
    "        padding: 20px;";
    "        margin: 20px 0;";
    "        background: #f8f9fa;";
    "        font-style: italic;";
    "        font-size: 1.1em;";
    "    " ++ dq ++ ">";
    "        <p style=" ++ dq ++ "margin-bottom: 10px;" ++ dq ++ ">" ++ dq ++ quote ++ dq ++ "</p>";
    "        <footer style=" ++ dq ++ "text-align: right; font-size: 0.9em;" ++ dq ++ ">";
    "            " ++ author_html ++ source_html;
    "        </footer>";
    "    </blockquote>";
    "    " ].

Definition create_button_link (text url style size : string) (new_tab : bool)
  : string :=
  let size_class := if negb (String.eqb size "md") then "btn-" ++ size else "" in
  let target :=
    if new_tab
    then "target=" ++ dq ++ "_blank" ++ dq ++ " rel=" ++ dq ++ "noopener noreferrer" ++ dq
    else "" in
  lines [
    "";
    "    <a href=" ++ dq ++ url ++ dq ++ " class=" ++ dq ++ "btn btn-" ++ style ++ " " ++ size_class ++ dq ++ " " ++ target ++ " ";
    "       style=" ++ dq ++ "margin: 10px 5px; text-decoration: none;" ++ dq ++ ">";
    "        " ++ text;
    "    </a>";
    "    " ].

Definition create_code_block (code language : string) (title : option string)
    (line_numbers : bool) : string :=
  let title_html := if_present title (fun title => "<div style=" ++ dq ++ "background: #f1f3f4; padding: 8px 12px; font-weight: bold; border-bottom: 1px solid #ddd;" ++ dq ++ ">" ++ title ++ "</div>") in
  lines [
    "";
    "    <div style=" ++ dq ++ "border: 1px solid #ddd; border-radius: 4px; margin: 15px 0; overflow: hidden;" ++ dq ++ ">";
    "        " ++ title_html;
    "        <pre style=" ++ dq ++ "margin: 0; padding: 15px; background: #f8f9fa; overflow-x: auto;" ++ dq ++ "><code class=" ++ dq ++ "language-" ++ language ++ dq ++ ">" ++ code ++ "</code></pre>";
    "    </div>";
    "    " ].

Definition create_two_column_layout (left_content right_content : string)
    (left_width right_width : Z) : string :=
  lines [
    "";
    "    <div class=" ++ dq ++ "row" ++ dq ++ " style=" ++ dq ++ "margin: 20px 0;" ++ dq ++ ">";
    "        <div class=" ++ dq ++ "col-md-" ++ str_of_int left_width ++ dq ++ ">";
    "            " ++ left_content;
    "        </div>";
    "        <div class=" ++ dq ++ "col-md-" ++ str_of_int right_width ++ dq ++ ">";
    "            " ++ right_content;
    "        </div>";
    "    </div>";
    "    " ].

(** The body of the loop of [create_image_gallery] for one image. *)
Definition image_item (col_width : Z) (img : dict) : result string :=
  let caption_html :=
    if opt_truthy (lookup img "caption")
    then "<div class=" ++ dq ++ "text-center mt-2" ++ dq ++ "><small>" ++ get img "caption" "" ++ "</small></div>"
    else "" in
  src <- getitem img "src" ;;
  Ok (lines [
    "";
    "        <div class=" ++ dq ++ "col-md-" ++ str_of_int col_width ++ " mb-4" ++ dq ++ ">";
    "            <div class=" ++ dq ++ "card" ++ dq ++ ">";
    "                <img src=" ++ dq ++ src ++ dq ++ " class=" ++ dq ++ "card-img-top" ++ dq ++ " alt=" ++ dq ++ get img "alt" "" ++ dq ++ " style=" ++ dq ++ "height: 200px; object-fit: cover;" ++ dq ++ ">";
    "                <div class=" ++ dq ++ "card-body" ++ dq ++ ">";
    "                    " ++ caption_html;
    "                </div>";
    "            </div>";
    "        </div>";
    "        " ]).

Fixpoint gallery_loop (col_width : Z) (images : list dict)
    (image_items : list string) : result (list string) :=
  match images with
  | [] => Ok image_items
  | img :: rest =>
      item <- image_item col_width img ;;
      gallery_loop col_width rest (append_item image_items item)
  end.

Definition gallery_html (title_html items_html : string) : string :=
  lines [
    "";
    "    <div style=" ++ dq ++ "margin: 20px 0;" ++ dq ++ ">";
    "        " ++ title_html;
    "        <div class=" ++ dq ++ "row" ++ dq ++ ">";
    "            " ++ items_html;
    "        </div>";
    "    </div>";
    "    " ].

Definition create_image_gallery (images : list dict) (columns : Z)
    (title : option string) : result string :=
  col_width <- floordiv 12 columns ;;
  let title_html := if_present title (fun title => "<h4>" ++ title ++ "</h4>") in
  image_items <- gallery_loop col_width images [] ;;
  Ok (gallery_html title_html (join "" image_items)).

(** *** Quick helpers *)

Definition quick_note (content : string) : string :=
  create_callout content "note" None false false.

Definition quick_tip (content : string) : string :=
  create_callout content "tip" None false false.

Definition quick_warning (content : string) : string :=
  create_callout content "warning" None false false.

Definition quick_success (content : string) : string :=
  create_alert_box content "success" None false.

Definition quick_info (content : string) : string :=
  create_alert_box content "info" None false.

Definition quick_youtube (video_id : string) : result string :=
  embed_youtube video_id "100%" (PyFloat 0.5625) None false true.

Definition quick_iframe (url : string) (aspect_ratio : pynum) : result string :=
  create_responsive_iframe url aspect_ratio "100%" "0" true "lazy".

Definition quick_quote (quote : string) (author : option string) : string :=
  create_quote_block quote author None.

(** *** Calls of the module

    One constructor per function, holding its arguments; [run] makes the
    call in a world and gives back what it returns or raises, and the
    world after it. *)

Inductive call : Type :=
| CreateCallout (content callout_type : string) (title : option string)
    (collapsible collapsed : bool)
| CreateAlertBox (content alert_type : string) (title : option string)
    (dismissible : bool)
| CreateInfoBox (content icon background_color border_color : string)
| CreateResponsiveIframe (src : string) (aspect_ratio : pynum)
    (max_width border : string) (allowfullscreen : bool) (loading : string)
| EmbedYoutube (video_id width : string) (aspect_ratio : pynum)
    (start_time : option Z) (autoplay controls : bool)
| EmbedVimeo (video_id width : string) (aspect_ratio : pynum)
| EmbedTwitterTweet (tweet_url theme : string)
| EmbedCodepen (pen_id user : string) (height : Z) (theme : string)
| EmbedPlotlyChart (chart_url : string) (height : Z) (width : string)
| CreateStyledTable (df : DataFrame) (title caption : option string)
    (max_rows : option Z) (striped hover responsive : bool)
| CreateSummaryStats (df : DataFrame) (columns : option (list string))
    (title : string)
| CreateComparisonTable (data : list (string * list cell)) (title : string)
    (highlight_best : bool)
| CreateTabs (tabs_content : dict) (tab_id : string)
| CreateAccordion (accordion_items : dict) (accordion_id : string)
    (allow_multiple : bool)
| CreateProgressBar (value max_value : pynum) (label : option string)
    (color : string) (striped animated : bool)
| CreateMetricCard (title : string) (value : display_value)
    (subtitle change : option string) (change_type : string)
    (icon : option string)
| CreateTimeline (events : list dict) (title : string)
| CreateQuoteBlock (quote : string) (author source : option string)
| CreateButtonLink (text url style size : string) (new_tab : bool)
| CreateCodeBlock (code language : string) (title : option string)
    (line_numbers : bool)
| CreateTwoColumnLayout (left_content right_content : string)
    (left_width right_width : Z)
| CreateImageGallery (images : list dict) (columns : Z) (title : option string)
| QuickNote (content : string)
| QuickTip (content : string)
| QuickWarning (content : string)
| QuickSuccess (content : string)
| QuickInfo (content : string)
| QuickYoutube (video_id : string)
| QuickIframe (url : string) (aspect_ratio : pynum)
| QuickQuote (quote : string) (author : option string).

Definition run (c : call) (w : world) : result string * world :=
  match c with
  | CreateCallout content callout_type title collapsible collapsed =>
      (Ok (create_callout content callout_type title collapsible collapsed), w)
  | CreateAlertBox content alert_type title dismissible =>
      (Ok (create_alert_box content alert_type title dismissible), w)
  | CreateInfoBox content icon background_color border_color =>
      (Ok (create_info_box content icon background_color border_color), w)
  | CreateResponsiveIframe src aspect_ratio max_width border allowfullscreen loading =>
      (create_responsive_iframe src aspect_ratio max_width border allowfullscreen loading, w)
  | EmbedYoutube video_id width aspect_ratio start_time autoplay controls =>
      (embed_youtube video_id width aspect_ratio start_time autoplay controls, w)
  | EmbedVimeo video_id width aspect_ratio =>
      (embed_vimeo video_id width aspect_ratio, w)
  | EmbedTwitterTweet tweet_url theme =>
      (Ok (embed_twitter_tweet tweet_url theme), w)
  | EmbedCodepen pen_id user height theme =>
      (embed_codepen pen_id user height theme, w)
  | EmbedPlotlyChart chart_url height width =>
      (Ok (embed_plotly_chart chart_url height width), w)
  | CreateStyledTable df title caption max_rows striped hover responsive =>
      (Ok (create_styled_table df title caption max_rows striped hover responsive), w)
  | CreateSummaryStats df columns title =>
      (create_summary_stats df columns title, w)
  | CreateComparisonTable data title highlight_best =>
      create_comparison_table data title highlight_best w
  | CreateTabs tabs_content tab_id =>
      (Ok (create_tabs tabs_content tab_id), w)
  | CreateAccordion accordion_items accordion_id allow_multiple =>
      (Ok (create_accordion accordion_items accordion_id allow_multiple), w)
  | CreateProgressBar value max_value label color striped animated =>
      (create_progress_bar value max_value label color striped animated, w)
  | CreateMetricCard title value subtitle change change_type icon =>
      (Ok (create_metric_card title value subtitle change change_type icon), w)
  | CreateTimeline events title =>
      (Ok (create_timeline events title), w)
  | CreateQuoteBlock quote author source =>
      (Ok (create_quote_block quote author source), w)
  | CreateButtonLink text url style size new_tab =>
      (Ok (create_button_link text url style size new_tab), w)
  | CreateCodeBlock code language title line_numbers =>
      (Ok (create_code_block code language title line_numbers), w)
  | CreateTwoColumnLayout left_content right_content left_width right_width =>
      (Ok (create_two_column_layout left_content right_content left_width right_width), w)
  | CreateImageGallery images columns title =>
      (create_image_gallery images columns title, w)
  | QuickNote content => (Ok (quick_note content), w)
  | QuickTip content => (Ok (quick_tip content), w)
  | QuickWarning content => (Ok (quick_warning content), w)
  | QuickSuccess content => (Ok (quick_success content), w)
  | QuickInfo content => (Ok (quick_info content), w)
  | QuickYoutube video_id => (quick_youtube video_id, w)
  | QuickIframe url aspect_ratio => (quick_iframe url aspect_ratio, w)
  | QuickQuote quote author => (Ok (quick_quote quote author), w)
  end.


(** *** The specification's reading of the interactive containers and
    of the quick helpers

    The sections after the first as the specification wants them:
    inactive tabs and panes, collapsed accordion sections. *)

Definition tab_id_clean (tab_name : string) : string :=
  replace_char " " "-" (lower tab_name).









(** A general renderer called with one argument besides the content and
    every other parameter left at its default. *)
Definition callout_of_type (callout_type content : string) : string :=
  create_callout content callout_type None false false.

Definition alert_of_type (alert_type content : string) : string :=
  create_alert_box content alert_type None false.

Definition youtube_by_default (video_id : string) : result string :=
  embed_youtube video_id "100%" (PyFloat 0.5625) None false true.

Definition iframe_by_default (src : string) (aspect_ratio : pynum)
  : result string :=
  create_responsive_iframe src aspect_ratio "100%" "0" true "lazy".

Definition quote_by_default (quote : string) (author : option string) : string :=
  create_quote_block quote author None.

(** A cell value that is a maximum of its column: no value of the
    column is above it.  In a column of doubles the NaNs are left out,
    as [max] leaves them out. *)
Definition int_is_max (column_values : list Z) (n : Z) : Prop :=
  forall k, In k column_values -> k <= n.

Definition float_is_max (column_values : list float) (x : float) : Prop :=
  PrimFloat.is_nan x = false
  /\ forall y, In y column_values ->
               PrimFloat.is_nan y = true \/ PrimFloat.leb y x = true.

(** The mark [highlight_max] puts on row [i] of column [j]. *)
Definition mark_at (st : Styler) (j i : nat) : option bool :=
  nth_error (nth j (st_marks st) []) i.

(** *** Notions used by the further properties *)


(** The identifier [create_accordion] gives the section at position [i]:
    [f"{accordion_id}-section-{i}"]. *)
Definition accordion_section_id (accordion_id : string) (i : Z) : string :=
  accordion_id ++ "-section-" ++ str_of_int i.


(** ['src' in img] *)
Definition has_src (img : dict) : bool :=
  match lookup img "src" with
  | Some _ => true
  | None => false
  end.

(** [v == 0] for a number. *)
Definition is_zero_num (v : pynum) : bool :=
  match v with
  | PyInt n => n =? 0
  | PyFloat x => PrimFloat.eqb x zero
  end.

(** ** Properties *)

(** *** YouTube embeds *)


(** C2, evaluated on the code.  With every optional parameter absent the
    embed URL is the video address followed by a bare question mark; with
    parameters present the query starts with an ampersand right after the
    question mark. *)
Theorem embed_youtube_url_keeps_separator :
  (forall video_id : string,
      youtube_src video_id None false true
      = "https://www.youtube.com/embed/" ++ video_id ++ "?")
  /\ youtube_src "dQw4w9WgXcQ" None false true
     = "https://www.youtube.com/embed/dQw4w9WgXcQ?"
  /\ youtube_src "dQw4w9WgXcQ" (Some 30) true false
     = "https://www.youtube.com/embed/dQw4w9WgXcQ?&start=30&autoplay=1&controls=0"
  /\ (forall video_id width aspect_ratio,
        embed_youtube video_id width aspect_ratio None false true
        = create_responsive_iframe
            ("https://www.youtube.com/embed/" ++ video_id ++ "?")
            aspect_ratio width "0" true "lazy").
Proof.
  repeat split; reflexivity.
Qed.

(** C10.  A start time of zero is treated as an absent one: the call
    returns what it returns with the start time left out, and none of the
    fragments put in the URL is a start parameter. *)
Theorem embed_youtube_start_zero_is_absent
    (video_id width : string) (aspect_ratio : pynum) (autoplay controls : bool) :
  embed_youtube video_id width aspect_ratio (Some 0) autoplay controls
  = embed_youtube video_id width aspect_ratio None autoplay controls
  /\ youtube_src video_id (Some 0) autoplay controls
     = youtube_src video_id None autoplay controls
  /\ forallb (fun fragment => negb (String.prefix "start=" fragment))
       (youtube_params (Some 0) autoplay controls) = true.
Proof.
  repeat split; try reflexivity.
  destruct autoplay, controls; reflexivity.
Qed.

(** *** Callouts and alerts *)

Lemma take_until_app (stop : ascii) (t r : string) :
  no_char stop t = true -> take_until stop (t ++ r) = t ++ take_until stop r.
Proof.
  induction t as [|a t IH]; simpl; intros H; [reflexivity|].
  apply andb_true_iff in H as [Ha Ht].
  apply negb_true_iff in Ha. rewrite Ha, IH by assumption. reflexivity.
Qed.

Lemma append_assoc (a b c : string) : (a ++ b) ++ c = a ++ (b ++ c).
Proof.
  induction a as [|x a IH]; simpl; [reflexivity | now rewrite IH].
Qed.

Lemma words_from_app (word t s : string) :
  no_char " " t = true -> words_from word (t ++ s) = words_from (word ++ t) s.
Proof.
  revert word. induction t as [|a t IH]; simpl; intros word H.
  - replace (word ++ "") with word; [reflexivity|].
    induction word as [|x word IHw]; simpl; [reflexivity | now rewrite <- IHw].
  - apply andb_true_iff in H as [Ha Ht].
    apply negb_true_iff in Ha. rewrite Ha, IH by assumption.
    now rewrite append_assoc.
Qed.

Lemma alert_class_of_unknown (alert_type : string) :
  lookup alert_classes alert_type = None ->
  get alert_classes alert_type "alert-info" = "alert-info".
Proof.
  unfold get. now intros ->.
Qed.

(** C1, as the code has it.  [create_alert_box] maps the tag through its
    table and falls back to [alert-info]: for a tag outside the table the
    markup is the markup for [info], its classes are [alert] and
    [alert-info] (and [alert-dismissible] when asked for), and the call
    returns.  [create_callout] has no table: the tag itself goes into the
    class list, as [callout-<tag>] after the two fixed classes, for every
    tag free of spaces and quotes, and the call returns. *)
Theorem unknown_variant_rendering
    (content alert_type callout_type : string) (title : option string)
    (dismissible collapsible collapsed : bool) (w : world) :
  lookup alert_classes alert_type = None ->
  no_char " " callout_type = true ->
  no_char (ascii_of_nat 34) callout_type = true ->
  (create_alert_box content alert_type title dismissible
   = create_alert_box content "info" title dismissible
   /\ class_list (create_alert_box content alert_type title dismissible)
      = "alert" :: "alert-info"
          :: (if dismissible then ["alert-dismissible"] else [])
   /\ run (CreateAlertBox content alert_type title dismissible) w
      = (Ok (create_alert_box content alert_type title dismissible), w))
  /\ (class_list (create_callout content callout_type title collapsible collapsed)
      = "callout" :: "callout-style-default" :: ("callout-" ++ callout_type)
          :: ((if collapsible then ["callout-collapse"] else [])
              ++ (if (collapsed && collapsible)%bool then ["collapsed"] else []))%list
     /\ run (CreateCallout content callout_type title collapsible collapsed) w
        = (Ok (create_callout content callout_type title collapsible collapsed), w)).
Proof.
  intros Hunknown Hspace Hquote. repeat split.
  - unfold create_alert_box. now rewrite (alert_class_of_unknown _ Hunknown).
  - unfold create_alert_box. rewrite (alert_class_of_unknown _ Hunknown).
    destruct dismissible; reflexivity.
  - unfold class_list, class_attr, create_callout, lines.
    destruct collapsible, collapsed; cbn;
      rewrite append_assoc, take_until_app by exact Hquote; cbn;
      rewrite words_from_app by exact Hspace; reflexivity.
Qed.

(** *** Tables *)

Lemma firstn_prefix {A : Type} (n : nat) (l : list A) :
  l = (firstn n l ++ skipn n l)%list.
Proof.
  symmetry. apply firstn_skipn.
Qed.

(** C3, as the code has it.  For a positive limit the rows handed to the
    table renderer are the first [max_rows] rows of the frame, in order,
    so at most [max_rows] of them; the markup is that of the truncated
    frame rendered with no limit.  With no limit every row is rendered. *)
Theorem create_styled_table_row_limit
    (df : DataFrame) (n : Z) (title caption : option string)
    (striped hover responsive : bool) :
  0 < n ->
  (df_rows (display_frame df (Some n)) = firstn (Z.to_nat n) (df_rows df)
   /\ df_rows df
      = (df_rows (display_frame df (Some n)) ++ skipn (Z.to_nat n) (df_rows df))%list
   /\ Z.of_nat (List.length (df_rows (display_frame df (Some n)))) <= n
   /\ df_columns (display_frame df (Some n)) = df_columns df
   /\ create_styled_table df title caption (Some n) striped hover responsive
      = create_styled_table (head df n) title caption None striped hover responsive)
  /\ display_frame df None = df.
Proof.
  intros Hn.
  assert (Hframe : display_frame df (Some n) = head df n).
  { unfold display_frame. destruct (Z.eqb_spec n 0); [lia | reflexivity]. }
  assert (Hrows : df_rows (head df n) = firstn (Z.to_nat n) (df_rows df)).
  { unfold head, slice_to; simpl. destruct (Z.leb_spec 0 n); [reflexivity | lia]. }
  repeat split.
  - now rewrite Hframe.
  - rewrite Hframe, Hrows. apply firstn_prefix.
  - rewrite Hframe, Hrows.
    pose proof (firstn_le_length (Z.to_nat n) (df_rows df)). lia.
  - now rewrite Hframe.
  - unfold create_styled_table. now rewrite Hframe.
Qed.

(** *** Image gallery *)



(** *** Tabs and accordion *)




(** *** Quick helpers *)

(** C9.  Each quick helper returns what the general renderer returns
    with one parameter fixed and the others at their defaults, and the
    fixed variant shows in the class list. *)
Theorem quick_helpers_are_pinned_renderers
    (content video_id url quote : string) (aspect_ratio : pynum)
    (author : option string) (w : world) :
  (quick_note content = callout_of_type "note" content
   /\ quick_tip content = callout_of_type "tip" content
   /\ quick_warning content = callout_of_type "warning" content
   /\ quick_success content = alert_of_type "success" content
   /\ quick_info content = alert_of_type "info" content
   /\ quick_youtube video_id = youtube_by_default video_id
   /\ quick_iframe url aspect_ratio = iframe_by_default url aspect_ratio
   /\ quick_quote quote author = quote_by_default quote author)
  /\ (run (QuickNote content) w = run (CreateCallout content "note" None false false) w
      /\ run (QuickTip content) w = run (CreateCallout content "tip" None false false) w
      /\ run (QuickWarning content) w
         = run (CreateCallout content "warning" None false false) w
      /\ run (QuickSuccess content) w = run (CreateAlertBox content "success" None false) w
      /\ run (QuickInfo content) w = run (CreateAlertBox content "info" None false) w
      /\ run (QuickYoutube video_id) w
         = run (EmbedYoutube video_id "100%" (PyFloat 0.5625) None false true) w
      /\ run (QuickIframe url aspect_ratio) w
         = run (CreateResponsiveIframe url aspect_ratio "100%" "0" true "lazy") w
      /\ run (QuickQuote quote author) w = run (CreateQuoteBlock quote author None) w)
  /\ (class_list (quick_note content) = ["callout"; "callout-style-default"; "callout-note"]
      /\ class_list (quick_tip content) = ["callout"; "callout-style-default"; "callout-tip"]
      /\ class_list (quick_warning content)
         = ["callout"; "callout-style-default"; "callout-warning"]
      /\ class_list (quick_success content) = ["alert"; "alert-success"]
      /\ class_list (quick_info content) = ["alert"; "alert-info"]).
Proof.
  repeat split; reflexivity.
Qed.

(** *** Progress bar *)



(** *** Comparison table *)

Lemma int_max_spec (zs : list Z) :
  forall m, int_max zs = Some m -> In m zs /\ forall k, In k zs -> k <= m.
Proof.
  induction zs as [|n rest IH]; simpl; intros m Hm; [discriminate|].
  destruct (int_max rest) as [m'|] eqn:Hrest.
  - injection Hm as <-. destruct (IH m' eq_refl) as [Hin Hle].
    split.
    + destruct (Z.max_spec n m') as [[_ ->] | [_ ->]]; auto.
    + intros k [<- | Hk]; [lia|]. specialize (Hle k Hk). lia.
  - injection Hm as <-. split; [auto|].
    intros k [<- | Hk]; [lia|].
    destruct rest; [contradiction | simpl in Hrest].
    destruct (int_max rest); discriminate.
Qed.

Lemma int_max_of_nonempty (zs : list Z) (i : nat) (n : Z) :
  nth_error zs i = Some n -> exists m, int_max zs = Some m.
Proof.
  destruct zs as [|z rest]; [destruct i; discriminate|].
  intros _. simpl. destruct (int_max rest); eauto.
Qed.

Lemma SFcompare_antisym (a b : spec_float) :
  SFcompare b a = option_map CompOpp (SFcompare a b).
Proof.
  destruct a as [sa|sa| |sa ma ea], b as [sb|sb| |sb mb eb]; simpl;
    try destruct sa; try destruct sb; try reflexivity;
    rewrite (Z.compare_antisym eb ea); destruct (eb ?= ea); simpl;
    try reflexivity; now rewrite (ZC4 mb ma).
Qed.

Lemma SFcompare_eq_compat (a b : spec_float) :
  SFcompare a b = Some Eq -> forall c, SFcompare a c = SFcompare b c.
Proof.
  destruct a as [sa|sa| |sa ma ea], b as [sb|sb| |sb mb eb]; simpl;
    try destruct sa; try destruct sb; try discriminate;
    intros H c; try reflexivity;
    try (destruct c as [sc|sc| |sc mc ec]; reflexivity).
  all: assert (Heq : ea = eb /\ ma = mb) by
      (destruct (Z.compare_spec ea eb); try discriminate; split; [assumption|];
       apply Pos.compare_eq; unfold Pos.compare;
       destruct (Pos.compare_cont Eq ma mb); simpl in H;
       try discriminate; reflexivity).
  all: destruct Heq as [<- <-]; reflexivity.
Qed.

(** The order of doubles, read off the comparison of their values. *)
Ltac float_order :=
  rewrite ?eqb_spec, ?ltb_spec, ?leb_spec in *;
  unfold SFeqb, SFltb, SFleb in *.

Lemma float_eqb_refl (x : float) :
  PrimFloat.is_nan x = false -> PrimFloat.eqb x x = true.
Proof.
  unfold PrimFloat.is_nan. now intros H%negb_false_iff.
Qed.

Lemma float_eqb_sym (x y : float) :
  PrimFloat.eqb x y = true -> PrimFloat.eqb y x = true.
Proof.
  float_order. rewrite (SFcompare_antisym (Prim2SF x) (Prim2SF y)).
  now destruct (SFcompare (Prim2SF x) (Prim2SF y)) as [[]|].
Qed.

Lemma float_eqb_ltb (x m a : float) :
  PrimFloat.eqb x m = true -> PrimFloat.ltb m a = true -> PrimFloat.ltb x a = true.
Proof.
  float_order. intros Heq Hlt.
  rewrite (SFcompare_eq_compat (Prim2SF x) (Prim2SF m)); [exact Hlt|].
  now destruct (SFcompare (Prim2SF x) (Prim2SF m)) as [[]|].
Qed.

Lemma float_ltb_not_leb (x a : float) :
  PrimFloat.ltb x a = true -> PrimFloat.leb a x = false.
Proof.
  float_order. rewrite (SFcompare_antisym (Prim2SF x) (Prim2SF a)).
  now destruct (SFcompare (Prim2SF x) (Prim2SF a)) as [[]|].
Qed.

Lemma float_leb_not_ltb (m x : float) :
  PrimFloat.leb m x = true -> PrimFloat.ltb m x = false -> PrimFloat.eqb x m = true.
Proof.
  float_order. rewrite (SFcompare_antisym (Prim2SF m) (Prim2SF x)).
  now destruct (SFcompare (Prim2SF m) (Prim2SF x)) as [[]|].
Qed.

Lemma float_max_in (xs : list float) :
  forall m, float_max xs = Some m -> In m xs /\ PrimFloat.is_nan m = false.
Proof.
  induction xs as [|a rest IH]; simpl; intros m Hm; [discriminate|].
  destruct (float_max rest) as [m'|].
  - destruct (IH m' eq_refl) as [Hin Hnan].
    destruct (PrimFloat.is_nan a) eqn:Ha.
    + injection Hm as <-. auto.
    + destruct (PrimFloat.ltb m' a); injection Hm as <-; auto.
  - destruct (PrimFloat.is_nan a) eqn:Ha; [discriminate|].
    injection Hm as <-. auto.
Qed.

Lemma float_max_marks_maximum (xs : list float) (x : float) :
  float_is_max xs x -> In x xs ->
  exists m, float_max xs = Some m /\ PrimFloat.eqb x m = true.
Proof.
  intros [Hnan Hbound]. induction xs as [|a rest IH]; [contradiction|].
  assert (Hrest : forall y, In y rest ->
                    PrimFloat.is_nan y = true \/ PrimFloat.leb y x = true)
    by (intros y Hy; apply Hbound; now right).
  assert (Hbelow : forall m, float_max rest = Some m -> PrimFloat.leb m x = true).
  { intros m Hm. destruct (float_max_in rest m Hm) as [Hin Hm_nan].
    destruct (Hrest m Hin) as [Hn | Hle]; [congruence | exact Hle]. }
  intros Hin. simpl.
  destruct (float_max rest) as [m|] eqn:Hmax.
  - specialize (Hbelow m eq_refl).
    destruct (PrimFloat.is_nan a) eqn:Ha.
    + destruct Hin as [-> | Hin]; [congruence|]. now apply IH.
    + destruct (PrimFloat.ltb m a) eqn:Hlt.
      * exists a. split; [reflexivity|].
        destruct Hin as [-> | Hin]; [now apply float_eqb_refl|].
        destruct (IH Hrest Hin) as [m' [Hm' Heq]]. injection Hm' as <-.
        pose proof (float_eqb_ltb x m a Heq Hlt) as Hxa.
        apply float_ltb_not_leb in Hxa.
        destruct (Hbound a (or_introl eq_refl)); congruence.
      * exists m. split; [reflexivity|].
        destruct Hin as [-> | Hin]; [now apply float_leb_not_ltb|].
        destruct (IH Hrest Hin) as [m' [Hm' Heq]]. now injection Hm' as <-.
  - destruct Hin as [-> | Hin].
    + rewrite Hnan. exists x. split; [reflexivity | now apply float_eqb_refl].
    + destruct (IH Hrest Hin) as [m' [Hm' _]]. discriminate.
Qed.

Lemma marks_of_column (color uuid : string) (df : DataFrame) (j : nat) :
  (j < List.length (df_columns df))%nat ->
  nth j (st_marks (highlight_max highlight_other color uuid df)) []
  = highlight_column highlight_other (column df j).
Proof.
  intros Hj. unfold highlight_max; simpl.
  set (f := fun j => highlight_column highlight_other (column df j)).
  rewrite (nth_indep _ [] (f O)) by (rewrite length_map, length_seq; exact Hj).
  rewrite map_nth, seq_nth by exact Hj. reflexivity.
Qed.

(** C5.  In a column of integers, and in a column of doubles (with or
    without integers among them), the cells [highlight_max] marks include
    every cell that holds the column maximum, tied maxima too; in a column
    of integers it marks no other cell.  [create_comparison_table] with [highlight_best] renders the
    frame with these marks.  In the column 3, 7, 7, 1 both sevens are
    marked. *)
Theorem highlight_best_marks_every_maximum
    (color uuid : string) (df : DataFrame) (j i : nat) :
  (j < List.length (df_columns df))%nat ->
  (forall (zs : list Z) (n : Z),
      all_ints (column df j) = Some zs ->
      nth_error zs i = Some n ->
      (int_is_max zs n
       <-> mark_at (highlight_max highlight_other color uuid df) j i = Some true))
  /\ (forall (xs : list float) (x : float),
        all_ints (column df j) = None ->
        all_floats (column df j) = Some xs ->
        nth_error xs i = Some x ->
        float_is_max xs x ->
        mark_at (highlight_max highlight_other color uuid df) j i = Some true)
  /\ (forall (data : list (string * list cell)) (title : string) (w : world)
             (frame : DataFrame),
        from_dict data = Ok frame ->
        create_comparison_table data title true w
        = (Ok (comparison_html title
                 (styler_to_html
                    (highlight_max highlight_other "lightgreen" (w O) frame))),
           snd (draw_uuid w)))
  /\ highlight_column highlight_other [CInt 3; CInt 7; CInt 7; CInt 1]
     = [false; true; true; false].
Proof.
  intros Hj. unfold mark_at. rewrite (marks_of_column color uuid df j Hj).
  split; [|split; [|split]].
  - intros zs n Hints Hi. unfold highlight_column, as_series. rewrite Hints.
    destruct (int_max_of_nonempty zs i n Hi) as [m Hm]. rewrite Hm.
    destruct (int_max_spec zs m Hm) as [Hin Hle].
    rewrite nth_error_map, Hi. simpl. split.
    + intros Hmax. f_equal. apply Z.eqb_eq.
      specialize (Hmax m Hin). apply nth_error_In in Hi.
      specialize (Hle n Hi). lia.
    + intros Hmark. injection Hmark as Hmark. apply Z.eqb_eq in Hmark.
      subst n. exact Hle.
  - intros xs x Hints Hfloats Hi Hmax. unfold highlight_column, as_series.
    rewrite Hints, Hfloats.
    destruct (float_max_marks_maximum xs x Hmax (nth_error_In _ _ Hi))
      as [m [Hm Heq]].
    rewrite Hm, nth_error_map, Hi. simpl. now rewrite Heq.
  - intros data title w frame Hframe. unfold create_comparison_table.
    now rewrite Hframe.
  - reflexivity.
Qed.

(** *** Purity *)

Lemma append_cancel_l (p a b : string) : p ++ a = p ++ b -> a = b.
Proof.
  induction p as [|c p IH]; simpl; intros H; [exact H|].
  injection H as H. now apply IH.
Qed.

Lemma length_append (a b : string) :
  String.length (a ++ b) = (String.length a + String.length b)%nat.
Proof.
  induction a as [|c a IH]; simpl; [reflexivity | now rewrite IH].
Qed.

Lemma append_cancel_r (s a : string) : forall b, a ++ s = b ++ s -> a = b.
Proof.
  assert (Hlen : forall c t, s <> String c (t ++ s)).
  { intros c t H. apply (f_equal String.length) in H.
    simpl in H. rewrite length_append in H. lia. }
  induction a as [|x a IH]; intros [|y b] H; simpl in H.
  - reflexivity.
  - now apply Hlen in H.
  - symmetry in H. now apply Hlen in H.
  - injection H as -> H. f_equal. now apply IH.
Qed.

Lemma comparison_html_inj (title a b : string) :
  comparison_html title a = comparison_html title b -> a = b.
Proof.
  unfold comparison_html, lines. cbn. intros H.
  injection H as H.
  repeat (match type of H with String _ _ = String _ _ => injection H as H end).
  apply append_cancel_l in H.
  repeat (match type of H with String _ _ = String _ _ => injection H as H end).
  now apply append_cancel_r in H.
Qed.

(** Whatever the markup of a [Styler] is, as long as it tells Stylers
    with different identifiers apart: two calls in a row with the same
    arguments return the same markup only if the two identifiers drawn
    are the same. *)
Lemma styled_tables_agree_only_on_equal_identifiers
    (data : list (string * list cell)) (title : string) (w : world)
    (frame : DataFrame) :
  (forall st st', styler_to_html st = styler_to_html st' -> st_uuid st = st_uuid st') ->
  from_dict data = Ok frame ->
  fst (create_comparison_table data title true w)
  = fst (create_comparison_table data title true
           (snd (create_comparison_table data title true w))) ->
  w 0%nat = w 1%nat.
Proof.
  intros Hid Hframe. unfold create_comparison_table. rewrite Hframe.
  cbn -[comparison_html]. intros H.
  apply (f_equal (fun r => match r with Ok html => html | Raise _ => title end)) in H.
  apply comparison_html_inj in H.
  exact (Hid _ _ H).
Qed.


(** ** Further properties *)

(** *** Identifiers of tabs and accordion sections *)





Lemma to_int_is_normal (n : Z) : Z.to_int n = Decimal.norm (Z.to_int n).
Proof.
  rewrite <- DecimalZ.to_of. now rewrite DecimalZ.of_to.
Qed.

Lemma str_of_int_inj (i j : Z) : str_of_int i = str_of_int j -> i = j.
Proof.
  unfold str_of_int. intros H.
  assert (Hparse : forall n, NilZero.int_of_string (NilZero.string_of_int (Z.to_int n))
                             = Some (Z.to_int n)).
  { intros n. apply NilZero.isi; rewrite to_int_is_normal;
      destruct (Z.to_int n) as [u|u]; simpl;
      try (destruct (Decimal.nzhead u)); intros E; try discriminate E;
      injection E as E; now apply DecimalFacts.unorm_nonnil in E. }
  apply DecimalZ.to_int_inj.
  pose proof (Hparse i) as Hi. rewrite H, Hparse in Hi. now injection Hi.
Qed.

(** X2.  The sections of one accordion get different identifiers: two
    positions with the same section identifier are the same position. *)
Theorem accordion_section_ids_are_distinct (accordion_id : string) (i j : Z) :
  accordion_section_id accordion_id i = accordion_section_id accordion_id j ->
  i = j.
Proof.
  unfold accordion_section_id. intros H.
  apply append_cancel_l in H. apply (append_cancel_l "-section-") in H.
  now apply str_of_int_inj.
Qed.

(** *** One section per entry *)






(** *** Timeline *)

Lemma timeline_loop_items (events : list dict) :
  forall timeline_items : list string,
    timeline_loop events timeline_items
    = (timeline_items ++ map timeline_item events)%list.
Proof.
  induction events as [|event rest IH]; intros items; simpl.
  - now rewrite app_nil_r.
  - rewrite IH. unfold append_item. now rewrite <- app_assoc.
Qed.

(** X5.  [create_timeline] renders one item per event, in the order of
    the list.  An item shows the date, title and description of its
    event and nothing else of it: events that agree on these three keys
    render the same, and an event without them renders as one that has
    them empty. *)
Theorem create_timeline_items (events : list dict) (event other : dict) :
  timeline_loop events [] = map timeline_item events
  /\ List.length (timeline_loop events []) = List.length events
  /\ (lookup event "date" = lookup other "date" ->
      lookup event "title" = lookup other "title" ->
      lookup event "description" = lookup other "description" ->
      timeline_item event = timeline_item other)
  /\ timeline_item [] = timeline_item [("date", ""); ("title", ""); ("description", "")].
Proof.
  split; [|split; [|split]].
  - apply timeline_loop_items.
  - rewrite timeline_loop_items. simpl. apply length_map.
  - intros Hdate Htitle Hdescription. unfold timeline_item, get.
    now rewrite Hdate, Htitle, Hdescription.
  - reflexivity.
Qed.

(** *** Image gallery: errors, order, widths *)

Lemma image_item_cases (col_width : Z) (img : dict) :
  if has_src img
  then exists html, image_item col_width img = Ok html
  else image_item col_width img = Raise (KeyError "src").
Proof.
  unfold has_src, image_item, getitem.
  destruct (lookup img "src") as [src|]; simpl; [eexists|]; reflexivity.
Qed.

Lemma gallery_loop_complete (col_width : Z) (images : list dict) :
  forallb has_src images = true ->
  forall image_items : list string,
  exists rendered : list string,
    gallery_loop col_width images image_items = Ok (image_items ++ rendered)%list
    /\ Forall2 (fun img html => image_item col_width img = Ok html) images rendered.
Proof.
  induction images as [|img rest IH]; simpl; intros Hsrc items.
  - exists []. now rewrite app_nil_r.
  - apply andb_true_iff in Hsrc as [Himg Hrest].
    pose proof (image_item_cases col_width img) as Hitem. rewrite Himg in Hitem.
    destruct Hitem as [html Hhtml]. rewrite Hhtml. simpl.
    destruct (IH Hrest (append_item items html)) as [rendered [Hloop Hall]].
    exists (html :: rendered). split.
    + rewrite Hloop. unfold append_item. now rewrite <- app_assoc.
    + now constructor.
Qed.

Lemma gallery_loop_missing_src (col_width : Z) (images : list dict) :
  forallb has_src images = false ->
  forall image_items : list string,
    gallery_loop col_width images image_items = Raise (KeyError "src").
Proof.
  induction images as [|img rest IH]; simpl; intros Hsrc items; [discriminate|].
  pose proof (image_item_cases col_width img) as Hitem.
  destruct (has_src img); simpl in Hsrc.
  - destruct Hitem as [html ->]. simpl. now apply IH.
  - now rewrite Hitem.
Qed.

(** X6.  [create_image_gallery] returns markup exactly when [columns] is
    not zero and every image has a [src].  With [columns] zero it raises
    [ZeroDivisionError], whatever the images, an empty list included;
    otherwise an image without [src] makes it raise [KeyError] for
    [src]. *)
Theorem create_image_gallery_errors
    (images : list dict) (columns : Z) (title : option string) :
  match create_image_gallery images columns title with
  | Ok _ => (columns =? 0) = false /\ forallb has_src images = true
  | Raise e =>
      e = (if columns =? 0 then ZeroDivisionError else KeyError "src")
      /\ ((columns =? 0) = true \/ forallb has_src images = false)
  end.
Proof.
  unfold create_image_gallery, floordiv.
  destruct (columns =? 0); simpl; [auto|].
  destruct (forallb has_src images) eqn:Hsrc.
  - destruct (gallery_loop_complete (12 / columns) images Hsrc [])
      as [rendered [-> _]]. simpl. auto.
  - rewrite (gallery_loop_missing_src (12 / columns) images Hsrc). simpl. auto.
Qed.

(** X7.  When the loop of [create_image_gallery] succeeds, it has
    appended one item per image, in the order of the list, each the
    rendering of its image. *)
Theorem gallery_loop_keeps_order
    (col_width : Z) (images : list dict) (image_items result : list string) :
  gallery_loop col_width images image_items = Ok result ->
  exists rendered : list string,
    result = (image_items ++ rendered)%list
    /\ List.length rendered = List.length images
    /\ Forall2 (fun img html => image_item col_width img = Ok html) images rendered.
Proof.
  intros Hloop.
  destruct (forallb has_src images) eqn:Hsrc.
  - destruct (gallery_loop_complete col_width images Hsrc image_items)
      as [rendered [Hok Hall]].
    rewrite Hok in Hloop. injection Hloop as <-.
    exists rendered. repeat split; [|exact Hall].
    symmetry. exact (Forall2_length Hall).
  - rewrite (gallery_loop_missing_src col_width images Hsrc) in Hloop.
    discriminate.
Qed.

Lemma create_image_gallery_same_quotient
    (images : list dict) (columns columns' : Z) (title : option string) :
  (columns =? 0) = false ->
  (columns' =? 0) = false ->
  12 / columns = 12 / columns' ->
  create_image_gallery images columns title
  = create_image_gallery images columns' title.
Proof.
  intros Hc Hc' Hq. unfold create_image_gallery, floordiv.
  now rewrite Hc, Hc', Hq.
Qed.

(** X8.  Column counts outside the grid are not rejected.  Every count
    above twelve renders as thirteen does, each item with the width class
    [col-md-0]; five and six columns render alike, as do seven to twelve;
    a negative count gives a negative width. *)
Theorem create_image_gallery_out_of_grid
    (images : list dict) (columns : Z) (title : option string) :
  (12 < columns ->
   create_image_gallery images columns title
   = create_image_gallery images 13 title
   /\ forall (img : dict) (src : string),
        lookup img "src" = Some src ->
        exists html,
          image_item (12 / columns) img = Ok html
          /\ class_list html = ["col-md-0"; "mb-4"])
  /\ (7 <= columns <= 12 ->
      create_image_gallery images columns title
      = create_image_gallery images 12 title)
  /\ create_image_gallery images 5 title = create_image_gallery images 6 title
  /\ (columns < 0 ->
      floordiv 12 columns = Ok (12 / columns) /\ 12 / columns < 0).
Proof.
  split; [|split; [|split]].
  - intros Hbig.
    assert (Hq : 12 / columns = 0) by (apply Z.div_small; lia).
    split.
    + apply create_image_gallery_same_quotient;
        [apply Z.eqb_neq; lia | reflexivity | now rewrite Hq].
    + intros img src Hsrc. rewrite Hq. unfold image_item, getitem.
      rewrite Hsrc. simpl. eexists; split; reflexivity.
  - intros Hmid.
    apply create_image_gallery_same_quotient;
      [apply Z.eqb_neq; lia | reflexivity |].
    assert (Hc : In columns [7; 8; 9; 10; 11; 12]) by (simpl; lia).
    simpl in Hc.
    repeat (destruct Hc as [<- | Hc]; [reflexivity|]). contradiction.
  - reflexivity.
  - intros Hneg. split.
    + unfold floordiv. destruct (Z.eqb_spec columns 0); [lia | reflexivity].
    + pose proof (Z.div_mod 12 columns ltac:(lia)) as Hdiv.
      pose proof (Z.mod_neg_bound 12 columns Hneg) as Hmod. nia.
Qed.

(** *** Progress bar: zero maximum, zero value *)

(** X9.  With a maximum of zero (the int 0, or the float 0.0 or -0.0)
    [create_progress_bar] renders nothing: it raises, and what it raises
    is [ZeroDivisionError] unless the value is an int too large to
    convert to a float. *)
Theorem create_progress_bar_zero_maximum
    (value max_value : pynum) (label : option string) (color : string)
    (striped animated : bool) :
  is_zero_num max_value = true ->
  is_ok (create_progress_bar value max_value label color striped animated) = false
  /\ (is_ok (as_double value) = true ->
      create_progress_bar value max_value label color striped animated
      = Raise ZeroDivisionError).
Proof.
  intros Hzero. unfold create_progress_bar, percentage_of, truediv.
  destruct value as [a|x], max_value as [b|y]; simpl in Hzero.
  - unfold int_true_divide. rewrite Hzero. simpl. auto.
  - simpl. destruct (float_of_int a) as [x|e]; simpl.
    + rewrite Hzero. simpl. auto.
    + split; [reflexivity | discriminate].
  - apply Z.eqb_eq in Hzero. subst b. split; [reflexivity | intros _; reflexivity].
  - simpl. rewrite Hzero. simpl. auto.
Qed.


(** *** Embeds: what can be raised *)



(** *** Variants, fallbacks and unused parameters *)

(** X13.  For each of the six alert types of the table, the class list of
    the alert is [alert] and [alert-] followed by the type (and
    [alert-dismissible] when asked for). *)
Theorem create_alert_box_known_type
    (content alert_type : string) (title : option string) (dismissible : bool) :
  In alert_type (map fst alert_classes) ->
  lookup alert_classes alert_type = Some ("alert-" ++ alert_type)
  /\ class_list (create_alert_box content alert_type title dismissible)
     = "alert" :: ("alert-" ++ alert_type)
         :: (if dismissible then ["alert-dismissible"] else []).
Proof.
  intros Hknown. simpl in Hknown.
  repeat (destruct Hknown as [<- | Hknown];
          [split; [reflexivity | destruct dismissible; reflexivity]|]).
  contradiction.
Qed.


(** X15.  [create_callout] does not escape its callout type: a double
    quote in it ends the class attribute there, and what follows the
    quote lands outside the class list. *)
Theorem create_callout_type_is_not_escaped
    (content tag rest : string) (title : option string)
    (collapsible collapsed : bool) :
  no_char " " tag = true ->
  no_char (ascii_of_nat 34) tag = true ->
  class_list (create_callout content (tag ++ dq ++ rest) title collapsible collapsed)
  = ["callout"; "callout-style-default"; "callout-" ++ tag].
Proof.
  intros Hspace Hquote.
  unfold class_list, class_attr, create_callout, lines. cbn.
  rewrite !append_assoc, take_until_app by exact Hquote. cbn.
  rewrite words_from_app by exact Hspace. reflexivity.
Qed.

(** X16.  Two parameters that change nothing: [create_code_block] never
    reads [line_numbers], and [create_callout] reads [collapsed] only when
    [collapsible] is set. *)
Theorem parameters_without_effect
    (code language content callout_type : string) (title : option string)
    (line_numbers collapsed : bool) :
  create_code_block code language title line_numbers
  = create_code_block code language title false
  /\ create_callout content callout_type title false collapsed
     = create_callout content callout_type title false false.
Proof.
  split; [reflexivity|]. unfold create_callout. now rewrite andb_false_r.
Qed.

(** *** YouTube query *)



(** *** Empty optional texts *)


End Renderers.

(** ** The properties on concrete calls *)

(** C1 on the tag [urgent], which neither enumeration has. *)
Lemma unknown_variant_rendering_witness :
  lookup alert_classes "urgent" = None
  /\ class_list (create_alert_box "Saved." "urgent" None false)
     = ["alert"; "alert-info"]
  /\ class_list (create_callout "Saved." "urgent" None false false)
     = ["callout"; "callout-style-default"; "callout-urgent"].
Proof.
  pose proof (unknown_variant_rendering
                Sample.float_repr Sample.to_html Sample.styler_to_html
                Sample.highlight_other Sample.select_columns Sample.select_numbers
                Sample.describe Sample.round3
                "Saved." "urgent" "urgent" None false false false Sample.uuids
                eq_refl eq_refl eq_refl)
    as [[_ [Halert _]] [Hcallout _]].
  split; [reflexivity | split; [exact Halert | exact Hcallout]].
Defined.

(** C1 fails for callouts: an unknown tag is not mapped to a default
    class.  The tags [urgent] and [fyi] are outside the enumeration, each
    lands in the class list as it is, and the class of the default type,
    [callout-note], is not there. *)
Lemma create_callout_has_no_fallback :
  existsb (String.eqb "urgent") callout_types = false
  /\ existsb (String.eqb "fyi") callout_types = false
  /\ class_list (create_callout "Saved." "urgent" None false false)
     = ["callout"; "callout-style-default"; "callout-urgent"]
  /\ class_list (create_callout "Saved." "fyi" None false false)
     = ["callout"; "callout-style-default"; "callout-fyi"]
  /\ has_class "callout-note" (create_callout "Saved." "urgent" None false false)
     = false
  /\ class_list (create_callout "Saved." "note" None false false)
     = ["callout"; "callout-style-default"; "callout-note"].
Proof.
  repeat split; reflexivity.
Qed.

(** C3 on a limit of two rows for a frame of three. *)
Lemma create_styled_table_row_limit_witness :
  0 < 2
  /\ df_rows (display_frame Sample.scores (Some 2))
     = [(CInt 0, [CStr "ada"; CInt 3]); (CInt 1, [CStr "bob"; CInt 7])]
  /\ Z.of_nat (List.length (df_rows (display_frame Sample.scores (Some 2)))) <= 2.
Proof.
  pose proof (create_styled_table_row_limit Sample.to_html Sample.scores 2
                None None true true true eq_refl)
    as [[Hrows [_ [Hcount _]]] _].
  split; [reflexivity | split; [exact Hrows | exact Hcount]].
Defined.

(** C3 fails for the limits 0 and -1: with the limit 0 all three rows of
    the frame are rendered, with the limit -1 two of them are. *)
Lemma create_styled_table_limit_zero_renders_all :
  df_rows (display_frame Sample.scores (Some 0)) = df_rows Sample.scores
  /\ (Z.of_nat (List.length (df_rows (display_frame Sample.scores (Some 0)))) <=? 0)
     = false
  /\ Z.of_nat (List.length (df_rows (display_frame Sample.scores (Some (-1))))) = 2
  /\ create_styled_table Sample.to_html Sample.scores None None (Some 0) true true true
     = create_styled_table Sample.to_html Sample.scores None None None true true true.
Proof.
  repeat split; reflexivity.
Qed.





(** C5 on a column with a tied maximum: both sevens are marked. *)
Lemma highlight_best_marks_every_maximum_witness :
  (0 < List.length (df_columns
                      {| df_columns := ["score"];
                         df_rows := rows_from 0 4 [[CInt 3; CInt 7; CInt 7; CInt 1]] |}))%nat
  /\ mark_at (highlight_max Sample.highlight_other "lightgreen" "1a2b3"
                {| df_columns := ["score"];
                   df_rows := rows_from 0 4 [[CInt 3; CInt 7; CInt 7; CInt 1]] |})
             0 2
     = Some true.
Proof.
  assert (Hmax : int_is_max [3; 7; 7; 1] 7).
  { intros k [<- | [<- | [<- | [<- | []]]]]; discriminate. }
  pose proof (highlight_best_marks_every_maximum
                Sample.to_html Sample.styler_to_html Sample.highlight_other
                "lightgreen" "1a2b3"
                {| df_columns := ["score"];
                   df_rows := rows_from 0 4 [[CInt 3; CInt 7; CInt 7; CInt 1]] |}
                0 2 (le_n 1))
    as [Hints _].
  split; [apply le_n | exact (proj1 (Hints [3; 7; 7; 1] 7 eq_refl eq_refl) Hmax)].
Defined.



(** ** The further properties on concrete calls *)

(** X2 on the third section of an accordion. *)
Lemma accordion_section_ids_are_distinct_witness :
  accordion_section_id "faq" 3 = accordion_section_id "faq" 3 /\ 3 = 3.
Proof.
  split; [reflexivity|].
  exact (accordion_section_ids_are_distinct "faq" 3 3 eq_refl).
Defined.

(** X7 on a gallery of two images. *)
Lemma gallery_loop_keeps_order_witness :
  exists items rendered : list string,
    gallery_loop 4 [[("src", "a.png")]; [("src", "b.png"); ("alt", "B")]] [] = Ok items
    /\ items = ([] ++ rendered)%list
    /\ List.length rendered = 2%nat.
Proof.
  destruct (gallery_loop 4 [[("src", "a.png")]; [("src", "b.png"); ("alt", "B")]] [])
    as [items|e] eqn:Hloop; [|discriminate Hloop].
  destruct (gallery_loop_keeps_order 4
              [[("src", "a.png")]; [("src", "b.png"); ("alt", "B")]] [] items Hloop)
    as [rendered [Hitems [Hcount _]]].
  exists items, rendered. split; [reflexivity | split; [exact Hitems | exact Hcount]].
Defined.

(** X9 on a progress bar of 5 against a maximum of 0.0. *)
Lemma create_progress_bar_zero_maximum_witness :
  is_zero_num (PyFloat 0) = true
  /\ create_progress_bar Sample.float_repr (PyInt 5) (PyFloat 0) None
       "primary" false false
     = Raise ZeroDivisionError.
Proof.
  split; [reflexivity|].
  exact (proj2 (create_progress_bar_zero_maximum Sample.float_repr
                  (PyInt 5) (PyFloat 0) None "primary" false false eq_refl)
               eq_refl).
Defined.


(** X13 on a dismissible warning. *)
Lemma create_alert_box_known_type_witness :
  In "warning" (map fst alert_classes)
  /\ class_list (create_alert_box "Disk almost full." "warning" None true)
     = ["alert"; "alert-warning"; "alert-dismissible"].
Proof.
  assert (Hknown : In "warning" (map fst alert_classes))
    by (simpl; right; right; left; reflexivity).
  split; [exact Hknown|].
  exact (proj2 (create_alert_box_known_type "Disk almost full." "warning"
                  None true Hknown)).
Defined.

(** X15 on a callout type that carries an attribute after a quote. *)
Lemma create_callout_type_is_not_escaped_witness :
  no_char " " "note" = true
  /\ class_list (create_callout "Saved." ("note" ++ dq ++ " onclick=" ++ dq ++ "run()")
                   None false false)
     = ["callout"; "callout-style-default"; "callout-note"].
Proof.
  split; [reflexivity|].
  exact (create_callout_type_is_not_escaped "Saved." "note"
           (" onclick=" ++ dq ++ "run()") None false false eq_refl eq_refl).
Defined.
